(** * RecordTranslator: physical/visual index translation and its registry

    Shallow embedding of [src/translations/recordTranslator.js] together
    with the parts of the repository it calls but that are not in this
    source tree ([IndexMapper] of [./indexMapper] and [isObject] of
    [../helpers/object]), which are modelled from the specification.

    JavaScript values are modelled with an explicit heap of objects, since
    the registry is keyed by object identity (two [WeakMap]s) and
    [toVisual]/[toPhysical] read the properties of a coordinate object
    between two hook calls. *)

From Stdlib Require Import ZArith List Bool.
From stdpp Require Import base gmap strings list fin_maps.
Import ListNotations.
Open Scope Z_scope.

(* ------------------------------------------------------------------ *)
(** ** JavaScript values and the heap *)

Definition loc := nat.

Inductive jsval :=
| JUndefined
| JNull
| JBool (b : bool)
| JNum (z : Z)
| JStr (s : string)
| JRef (l : loc).

#[global] Instance jsval_eq_dec : EqDecision jsval.
Proof. solve_decision. Defined.

(** Modelled from the spec: [IndexMapper] of [./indexMapper] (not in the
    source tree). One axis: [indexOrder] is the ordered sequence of
    physical indexes, [skipped] the physical indexes currently excluded
    from the visual order (section 3 of the spec). *)
Record IndexMapper := mkIndexMapper {
  indexOrder : list Z;
  skipped : list Z;
}.

(** The fields a [RecordTranslator] instance holds (its constructor). *)
Record RecordTranslator := mkRecordTranslator {
  hot : jsval;
  rowIndexMapper : IndexMapper;
  columnIndexMapper : IndexMapper;
}.

(** Heap objects: plain objects with own properties, arrays, instances of
    the host class [Core], [RecordTranslator] instances, and any other
    object. *)
Inductive obj :=
| OPlain (fields : list (string * jsval))
| OArray (elems : list jsval)
| OCore
| OTranslator (rt : RecordTranslator)
| OOther.

Abbreviation heap := (gmap loc obj).

(** Exceptions thrown by the code: the registry's own [Error] and the
    [TypeError]s of the JavaScript runtime (a [WeakMap] key that is not an
    object, a property read on a missing [this]). *)
Inductive exn :=
| ENotRegistered
| ETypeError.

(* ------------------------------------------------------------------ *)
(** ** A state and exception monad *)

Inductive result (S A : Type) :=
| Ok (a : A) (s : S)
| Throw (e : exn) (s : S).
Arguments Ok {S A} a s.
Arguments Throw {S A} e s.

Definition ST (S A : Type) := S -> result S A.

Definition ret {S A} (a : A) : ST S A := fun s => Ok a s.

Definition bind {S A B} (m : ST S A) (k : A -> ST S B) : ST S B :=
  fun s => match m s with
           | Ok a s' => k a s'
           | Throw e s' => Throw e s'
           end.

Definition throw {S A} (e : exn) : ST S A := fun s => Throw e s.

Definition get {S} : ST S S := fun s => Ok s s.

Definition put {S} (s : S) : ST S unit := fun _ => Ok tt s.

Notation "x <- m ;; k" := (bind m (fun x => k))
  (at level 100, m at next level, right associativity).

(* ------------------------------------------------------------------ *)
(** ** Property reads and the object-shape helper *)

Fixpoint field_lookup (k : string) (fs : list (string * jsval)) : jsval :=
  match fs with
  | [] => JUndefined
  | (k', v) :: fs' => if String.eqb k k' then v else field_lookup k fs'
  end.

(** [v.k] for the properties the code reads on a coordinate object.
    Reading a property of [undefined] or [null] throws a [TypeError]. *)
Definition get_prop (v : jsval) (k : string) : ST heap jsval :=
  fun h =>
    match v with
    | JUndefined | JNull => Throw ETypeError h
    | JRef l =>
        match h !! l with
        | Some (OPlain fs) => Ok (field_lookup k fs) h
        | _ => Ok JUndefined h
        end
    | _ => Ok JUndefined h
    end.

(** Modelled from the spec: [isObject] of [../helpers/object] (not in the
    source tree), the helper telling whether a value is object-like: any
    non-array object; primitives, [null], [undefined] and arrays are not. *)
Definition isObject (h : heap) (v : jsval) : bool :=
  match v with
  | JRef l =>
      match h !! l with
      | Some (OArray _) | None => false
      | Some _ => true
      end
  | _ => false
  end.

(** [v instanceof Core]. *)
Definition instanceofCore (h : heap) (v : jsval) : bool :=
  match v with
  | JRef l => match h !! l with Some OCore => true | _ => false end
  | _ => false
  end.

(* ------------------------------------------------------------------ *)
(** ** IndexMapper (one axis) *)

Module IndexMapperModel.

(** Modelled from the spec: the unmapped sentinel of [IndexMapper], the
    conventional [-1] of section 3 ("conventionally -1 or undefined"). *)
Definition unmapped : jsval := JNum (-1).

Definition memZ (p : Z) (l : list Z) : bool := existsb (Z.eqb p) l.

(** Modelled from the spec: the derived visual order, [indexOrder] with the
    skipped physical indexes filtered out. *)
Definition visualOrder (m : IndexMapper) : list Z :=
  List.filter (fun p => negb (memZ p (skipped m))) (indexOrder m).

Fixpoint index_of (p : Z) (l : list Z) : option nat :=
  match l with
  | [] => None
  | q :: l' =>
      if Z.eqb p q then Some 0%nat
      else match index_of p l' with Some i => Some (S i) | None => None end
  end.

(** Modelled from the spec: [getVisualIndex(physicalIndex)], the position of
    a non-skipped physical index in the visual order, the sentinel for a
    skipped index or an index unknown to [indexOrder]. *)
Definition getVisualIndex (m : IndexMapper) (v : jsval) : jsval :=
  match v with
  | JNum p =>
      if memZ p (skipped m) then unmapped
      else match index_of p (visualOrder m) with
           | Some i => JNum (Z.of_nat i)
           | None => unmapped
           end
  | _ => unmapped
  end.

(** Modelled from the spec: [getPhysicalIndex(visualIndex)], the physical
    index at a rank of the visual order, the sentinel out of range. *)
Definition getPhysicalIndex (m : IndexMapper) (v : jsval) : jsval :=
  match v with
  | JNum i =>
      if i <? 0 then unmapped
      else match nth_error (visualOrder m) (Z.to_nat i) with
           | Some p => JNum p
           | None => unmapped
           end
  | _ => unmapped
  end.

(** Modelled from the spec: [getSkippedIndexes()], [isSkipped(index)] and
    [setSkippedIndexes(list)] (the whole skipped set is replaced). *)
Definition getSkippedIndexes (m : IndexMapper) : list Z := skipped m.

Definition isSkipped (m : IndexMapper) (v : jsval) : bool :=
  match v with JNum p => memZ p (skipped m) | _ => false end.

Definition setSkippedIndexes (m : IndexMapper) (l : list Z) : IndexMapper :=
  {| indexOrder := indexOrder m; skipped := l |}.

(** Modelled from the spec: [new IndexMapper()]; the index order is supplied
    later by the host, nothing is skipped. *)
Definition newIndexMapper : IndexMapper :=
  {| indexOrder := []; skipped := [] |}.

End IndexMapperModel.

Import IndexMapperModel.

(* ------------------------------------------------------------------ *)
(** ** RecordTranslator methods *)

(** [new RecordTranslator(hot)]: the field values of the new instance. *)
Definition newRecordTranslator (h : jsval) : RecordTranslator :=
  {| hot := h; rowIndexMapper := newIndexMapper;
     columnIndexMapper := newIndexMapper |}.

(** The value a coordinate call returns: the object literal
    [{row, column}] or the array [[row, column]]. *)
Inductive coords :=
| CObj (row column : jsval)
| CPair (row column : jsval).

(** Reading [this] (a [RecordTranslator] at [t]). *)
Definition get_this (t : loc) : ST heap RecordTranslator :=
  fun h => match h !! t with
           | Some (OTranslator rt) => Ok rt h
           | _ => Throw ETypeError h
           end.

(** Writing back [this] after a mapper of it was mutated. *)
Definition put_this (t : loc) (rt : RecordTranslator) : ST heap unit :=
  fun h => Ok tt (<[t := OTranslator rt]> h).

Section Translator.

(** [hot.runHooks(name, value)]: the host's hook runner. Hooks are arbitrary
    code: they may read and write the heap and may throw. *)
Variable runHooks : jsval -> string -> jsval -> ST heap jsval.

Definition toVisualRow (t : loc) (row : jsval) : ST heap jsval :=
  this <- get_this t ;;
  runHooks (hot this) "unmodifyRow" (getVisualIndex (rowIndexMapper this) row).

Definition toVisualColumn (t : loc) (column : jsval) : ST heap jsval :=
  this <- get_this t ;;
  runHooks (hot this) "unmodifyCol"
    (getVisualIndex (columnIndexMapper this) column).

Definition toVisual (t : loc) (row column : jsval) : ST heap coords :=
  h <- get ;;
  if isObject h row then
    r <- get_prop row "row" ;;
    vr <- toVisualRow t r ;;
    c <- get_prop row "column" ;;
    vc <- toVisualColumn t c ;;
    ret (CObj vr vc)
  else
    vr <- toVisualRow t row ;;
    vc <- toVisualColumn t column ;;
    ret (CPair vr vc).

Definition toPhysicalRow (t : loc) (row : jsval) : ST heap jsval :=
  this <- get_this t ;;
  runHooks (hot this) "modifyRow" (getPhysicalIndex (rowIndexMapper this) row).

Definition toPhysicalColumn (t : loc) (column : jsval) : ST heap jsval :=
  this <- get_this t ;;
  runHooks (hot this) "modifyCol"
    (getPhysicalIndex (columnIndexMapper this) column).

Definition toPhysical (t : loc) (row column : jsval) : ST heap coords :=
  h <- get ;;
  if isObject h row then
    r <- get_prop row "row" ;;
    pr <- toPhysicalRow t r ;;
    c <- get_prop row "column" ;;
    pc <- toPhysicalColumn t c ;;
    ret (CObj pr pc)
  else
    pr <- toPhysicalRow t row ;;
    pc <- toPhysicalColumn t column ;;
    ret (CPair pr pc).

End Translator.

Definition getSkippedRows (t : loc) : ST heap (list Z) :=
  this <- get_this t ;; ret (getSkippedIndexes (rowIndexMapper this)).

Definition getSkippedColumns (t : loc) : ST heap (list Z) :=
  this <- get_this t ;; ret (getSkippedIndexes (columnIndexMapper this)).

Definition isSkippedRow (t : loc) (row : jsval) : ST heap bool :=
  this <- get_this t ;; ret (isSkipped (rowIndexMapper this) row).

Definition isSkippedColumn (t : loc) (column : jsval) : ST heap bool :=
  this <- get_this t ;; ret (isSkipped (columnIndexMapper this) column).

Definition setSkippedRows (t : loc) (indexes : list Z) : ST heap unit :=
  this <- get_this t ;;
  put_this t {| hot := hot this;
                rowIndexMapper := setSkippedIndexes (rowIndexMapper this) indexes;
                columnIndexMapper := columnIndexMapper this |}.

Definition setSkippedColumns (t : loc) (indexes : list Z) : ST heap unit :=
  this <- get_this t ;;
  put_this t {| hot := hot this;
                rowIndexMapper := rowIndexMapper this;
                columnIndexMapper :=
                  setSkippedIndexes (columnIndexMapper this) indexes |}.

(** Hooks that leave the object at [l] as they found it: whatever they do,
    their effect cannot differ between a call that reads the coordinates
    from the object at [l] and one that gets them as two arguments. *)
Definition hooks_keep (runHooks : jsval -> string -> jsval -> ST heap jsval)
    (l : loc) : Prop :=
  forall hv name v h1 v' h2,
    runHooks hv name v h1 = Ok v' h2 -> h2 !! l = h1 !! l.

(* ------------------------------------------------------------------ *)
(** ** Sample configurations *)

(** A row axis of five physical indexes with index 1 skipped (the scenario
    of section 8 of the spec) and a column axis of three. *)
Definition sample_rows : IndexMapper :=
  {| indexOrder := [0; 1; 2; 3; 4]; skipped := [1] |}.

Definition sample_columns : IndexMapper :=
  {| indexOrder := [0; 1; 2]; skipped := [] |}.

(** A heap with a translator at 0 for the [Core] instance at 1, another
    [Core] instance at 2 and the coordinate object [{row: 3, column: 1}]
    at 3. *)
Definition sample_heap : heap :=
  <[0%nat := OTranslator (mkRecordTranslator (JRef 1%nat) sample_rows sample_columns)]>
  (<[1%nat := OCore]>
  (<[2%nat := OCore]>
  (<[3%nat := OPlain [("row", JNum 3); ("column", JNum 1)]]> ∅))).

(** A hook runner whose [modifyRow] hook adds 10 to a number. *)
Definition plus10_hooks (hv : jsval) (name : string) (v : jsval) : ST heap jsval :=
  fun h => if String.eqb name "modifyRow" then
             match v with JNum z => Ok (JNum (z + 10)) h | _ => Ok v h end
           else Ok v h.

(** A hook runner whose hooks all map the unmapped sentinel to 0. *)
Definition sentinel_hooks (hv : jsval) (name : string) (v : jsval) : ST heap jsval :=
  fun h => if bool_decide (v = unmapped) then Ok (JNum 0) h else Ok v h.

(** A hook runner whose [unmodifyRow] hook rewrites the coordinate object
    at 3 to [{row: 3, column: 2}]. *)
Definition rewriting_hooks (hv : jsval) (name : string) (v : jsval) : ST heap jsval :=
  fun h => if String.eqb name "unmodifyRow" then
             Ok v (<[3%nat := OPlain [("row", JNum 3); ("column", JNum 2)]]> h)
           else Ok v h.

(* ------------------------------------------------------------------ *)
(** ** The translator registry *)

(** The module state: the heap and the two module-private [WeakMap]s
    [identities] and [translatorSingletons], keyed by object identity. *)
Record state := mkState {
  st_heap : heap;
  identities : gmap loc jsval;
  translatorSingletons : gmap loc loc;
}.

Definition set_heap (s : state) (h : heap) : state :=
  mkState h (identities s) (translatorSingletons s).
Definition set_identities (s : state) (m : gmap loc jsval) : state :=
  mkState (st_heap s) m (translatorSingletons s).
Definition set_singletons (s : state) (m : gmap loc loc) : state :=
  mkState (st_heap s) (identities s) m.

(** [WeakMap.prototype.has] and [get]: a key that is not an object is never
    present. *)
Definition weak_has {V} (m : gmap loc V) (k : jsval) : bool :=
  match k with JRef l => bool_decide (is_Some (m !! l)) | _ => false end.

Definition weak_get {V} (m : gmap loc V) (k : jsval) : option V :=
  match k with JRef l => m !! l | _ => None end.

(** [new ...]: allocation of a fresh object. *)
Definition alloc (o : obj) : ST state loc :=
  fun s => let l := fresh (dom (st_heap s)) in
           Ok l (set_heap s (<[l := o]> (st_heap s))).

(** [registerIdentity(identity, hot)]: [identities.set(identity, hot)];
    [WeakMap.prototype.set] throws a [TypeError] on a non-object key. *)
Definition registerIdentity (identity h : jsval) : ST state unit :=
  s <- get ;;
  match identity with
  | JRef l => put (set_identities s (<[l := h]> (identities s)))
  | _ => throw ETypeError
  end.

(** [getIdentity(identity)]. *)
Definition getIdentity (identity : jsval) : ST state jsval :=
  s <- get ;;
  if negb (weak_has (identities s) identity) then throw ENotRegistered
  else ret (match weak_get (identities s) identity with
            | Some v => v
            | None => JUndefined
            end).

(** [translatorSingletons.set(instance, singleton)]. *)
Definition set_singleton (instance : jsval) (t : loc) : ST state unit :=
  s <- get ;;
  match instance with
  | JRef l => put (set_singletons s (<[l := t]> (translatorSingletons s)))
  | _ => throw ETypeError
  end.

(** The first line of [getTranslator]:
    [identity instanceof Core ? identity : getIdentity(identity)]. *)
Definition resolveInstance (identity : jsval) : ST state jsval :=
  s <- get ;;
  if instanceofCore (st_heap s) identity then ret identity
  else getIdentity identity.

(** [getTranslator(identity)]; the result is the location of the
    [RecordTranslator] instance. *)
Definition getTranslator (identity : jsval) : ST state loc :=
  instance <- resolveInstance identity ;;
  s <- get ;;
  if weak_has (translatorSingletons s) instance then
    ret (match weak_get (translatorSingletons s) instance with
         | Some t => t
         | None => 0%nat
         end)
  else
    singleton <- alloc (OTranslator (newRecordTranslator instance)) ;;
    _ <- set_singleton instance singleton ;;
    ret singleton.

(** The instance [resolveInstance] yields, as a pure function of the
    state ([None] when it throws "not registered"). *)
Definition resolved (s : state) (identity : jsval) : option jsval :=
  if instanceofCore (st_heap s) identity then Some identity
  else if weak_has (identities s) identity then
    Some (match weak_get (identities s) identity with
          | Some v => v
          | None => JUndefined
          end)
  else None.

(** Client programs of the module: calls of its two exported registry
    functions, and any code that only touches the heap (hooks, translator
    methods, the host); the two [WeakMap]s are private to the module. A
    thrown exception is caught by the caller and the program goes on. *)
Inductive op :=
| OpRegister (identity h : jsval)
| OpGet (identity : jsval)
| OpHeap (f : heap -> heap).

Definition final_state {A} (r : result state A) : state :=
  match r with Ok _ s => s | Throw _ s => s end.

Definition exec_op (o : op) (s : state) : state :=
  match o with
  | OpRegister k h => final_state (registerIdentity k h s)
  | OpGet k => final_state (getTranslator k s)
  | OpHeap f => set_heap s (f (st_heap s))
  end.

Fixpoint run_ops (ops : list op) (s : state) : state :=
  match ops with
  | [] => s
  | o :: ops' => run_ops ops' (exec_op o s)
  end.

(** The state at module load: both [WeakMap]s empty. *)
Definition init_state (h : heap) : state := mkState h ∅ ∅.

(* ================================================================== *)
(** * Properties *)

(* ------------------------------------------------------------------ *)
(** ** The IndexMapper model *)

Lemma memZ_In (p : Z) (l : list Z) : memZ p l = true <-> In p l.
Proof.
  unfold memZ. rewrite existsb_exists. split.
  - intros (q & Hq & Heq). apply Z.eqb_eq in Heq. subst. exact Hq.
  - intros Hp. exists p. split; [exact Hp | apply Z.eqb_refl].
Qed.

Lemma index_of_nth_error (p : Z) (l : list Z) (i : nat) :
  index_of p l = Some i -> nth_error l i = Some p.
Proof.
  revert i. induction l as [|q l IH]; intros i Hi; simpl in Hi.
  - discriminate.
  - destruct (Z.eqb_spec p q) as [->|Hne].
    + injection Hi as <-. reflexivity.
    + destruct (index_of p l) as [j|] eqn:Hj; [|discriminate].
      injection Hi as <-. simpl. apply IH. reflexivity.
Qed.

Lemma index_of_In (p : Z) (l : list Z) :
  In p l -> exists i, index_of p l = Some i.
Proof.
  induction l as [|q l IH]; intros Hp; simpl in *.
  - contradiction.
  - destruct (Z.eqb_spec p q) as [->|Hne]; [eauto|].
    destruct Hp as [->|Hp]; [congruence|].
    destruct (IH Hp) as [i ->]. eauto.
Qed.

Lemma In_visualOrder (m : IndexMapper) (p : Z) :
  In p (indexOrder m) -> memZ p (skipped m) = false -> In p (visualOrder m).
Proof.
  intros Hin Hs. unfold visualOrder. apply filter_In. rewrite Hs. auto.
Qed.

(* ------------------------------------------------------------------ *)
(** ** Translator methods *)

Section TranslatorProps.

Variable runHooks : jsval -> string -> jsval -> ST heap jsval.

Lemma get_this_ok (t : loc) (rt : RecordTranslator) (h : heap) :
  h !! t = Some (OTranslator rt) -> get_this t h = Ok rt h.
Proof. intros Ht. unfold get_this. rewrite Ht. reflexivity. Qed.

(** The scalar-pair branch of [toVisual] and [toPhysical]. *)
Lemma toVisual_scalar (t : loc) (row column : jsval) (h : heap) :
  isObject h row = false ->
  toVisual runHooks t row column h =
  (vr <- toVisualRow runHooks t row ;;
   vc <- toVisualColumn runHooks t column ;;
   ret (CPair vr vc)) h.
Proof. intros Hrow. unfold toVisual, bind at 1, get. rewrite Hrow. reflexivity. Qed.

Lemma toPhysical_scalar (t : loc) (row column : jsval) (h : heap) :
  isObject h row = false ->
  toPhysical runHooks t row column h =
  (pr <- toPhysicalRow runHooks t row ;;
   pc <- toPhysicalColumn runHooks t column ;;
   ret (CPair pr pc)) h.
Proof. intros Hrow. unfold toPhysical, bind at 1, get. rewrite Hrow. reflexivity. Qed.

Lemma hook_call_keeps (l t : loc) (name : string)
    (mapper : RecordTranslator -> IndexMapper)
    (f : IndexMapper -> jsval -> jsval) (x v : jsval) (h h' : heap) :
  hooks_keep runHooks l ->
  (this <- get_this t ;; runHooks (hot this) name (f (mapper this) x)) h
    = Ok v h' ->
  h' !! l = h !! l.
Proof.
  intros Hk. unfold bind, get_this.
  destruct (h !! t) as [[]|]; try discriminate. apply Hk.
Qed.

(** The object branch: [row.row] is read before the row hook runs and
    [row.column] after it. *)
Lemma toVisual_object (t l : loc) (fs : list (string * jsval)) (x : jsval)
    (h : heap) :
  h !! l = Some (OPlain fs) -> hooks_keep runHooks l ->
  toVisual runHooks t (JRef l) x h =
  (vr <- toVisualRow runHooks t (field_lookup "row" fs) ;;
   vc <- toVisualColumn runHooks t (field_lookup "column" fs) ;;
   ret (CObj vr vc)) h.
Proof.
  intros Hl Hk. unfold toVisual, bind at 1 2, get. simpl. rewrite Hl.
  unfold get_prop at 1. rewrite Hl. unfold bind at 1 4.
  destruct (toVisualRow runHooks t (field_lookup "row" fs) h) as [vr h1|e h1]
    eqn:Hrow; [|reflexivity].
  assert (Hl1 : h1 !! l = Some (OPlain fs)).
  { rewrite <- Hl. exact (hook_call_keeps l t _ _ _ _ _ _ _ Hk Hrow). }
  unfold bind at 1, get_prop. rewrite Hl1. reflexivity.
Qed.

Lemma toPhysical_object (t l : loc) (fs : list (string * jsval)) (x : jsval)
    (h : heap) :
  h !! l = Some (OPlain fs) -> hooks_keep runHooks l ->
  toPhysical runHooks t (JRef l) x h =
  (pr <- toPhysicalRow runHooks t (field_lookup "row" fs) ;;
   pc <- toPhysicalColumn runHooks t (field_lookup "column" fs) ;;
   ret (CObj pr pc)) h.
Proof.
  intros Hl Hk. unfold toPhysical, bind at 1 2, get. simpl. rewrite Hl.
  unfold get_prop at 1. rewrite Hl. unfold bind at 1 4.
  destruct (toPhysicalRow runHooks t (field_lookup "row" fs) h) as [pr h1|e h1]
    eqn:Hrow; [|reflexivity].
  assert (Hl1 : h1 !! l = Some (OPlain fs)).
  { rewrite <- Hl. exact (hook_call_keeps l t _ _ _ _ _ _ _ Hk Hrow). }
  unfold bind at 1, get_prop. rewrite Hl1. reflexivity.
Qed.

End TranslatorProps.

(* ------------------------------------------------------------------ *)
(** ** Claims on the IndexMapper and the translator methods *)

(** C3: for a physical index [p] of the axis that is not skipped,
    [getPhysicalIndex(getVisualIndex(p)) == p]. *)
Theorem visual_physical_roundtrip (m : IndexMapper) (p : Z)
    (Hin : In p (indexOrder m)) (Hns : isSkipped m (JNum p) = false) :
  getPhysicalIndex m (getVisualIndex m (JNum p)) = JNum p.
Proof.
  simpl in Hns. unfold getVisualIndex. rewrite Hns.
  destruct (index_of_In p (visualOrder m) (In_visualOrder m p Hin Hns))
    as [i Hi].
  rewrite Hi. unfold getPhysicalIndex.
  replace (Z.of_nat i <? 0) with false by (symmetry; apply Z.ltb_ge; lia).
  rewrite Nat2Z.id, (index_of_nth_error p _ i Hi). reflexivity.
Qed.

Lemma visual_physical_roundtrip_witness :
  In 3 (indexOrder sample_rows) /\ isSkipped sample_rows (JNum 3) = false /\
  getPhysicalIndex sample_rows (getVisualIndex sample_rows (JNum 3)) = JNum 3.
Proof.
  split; [simpl; tauto|]. split; [reflexivity|].
  apply visual_physical_roundtrip; [simpl; tauto | reflexivity].
Defined.

(** C1: each single-axis translation asks the axis' IndexMapper and returns
    what the matching host hook makes of its answer: [unmodifyRow] and
    [unmodifyCol] after [getVisualIndex], [modifyRow] and [modifyCol] after
    [getPhysicalIndex]. *)
Theorem axis_translations_run_hooks
    (runHooks : jsval -> string -> jsval -> ST heap jsval)
    (t : loc) (rt : RecordTranslator) (h : heap) (index : jsval)
    (Ht : h !! t = Some (OTranslator rt)) :
  toVisualRow runHooks t index h =
    runHooks (hot rt) "unmodifyRow" (getVisualIndex (rowIndexMapper rt) index) h /\
  toVisualColumn runHooks t index h =
    runHooks (hot rt) "unmodifyCol" (getVisualIndex (columnIndexMapper rt) index) h /\
  toPhysicalRow runHooks t index h =
    runHooks (hot rt) "modifyRow" (getPhysicalIndex (rowIndexMapper rt) index) h /\
  toPhysicalColumn runHooks t index h =
    runHooks (hot rt) "modifyCol" (getPhysicalIndex (columnIndexMapper rt) index) h.
Proof.
  unfold toVisualRow, toVisualColumn, toPhysicalRow, toPhysicalColumn, bind.
  rewrite (get_this_ok t rt h Ht). repeat split.
Qed.

Lemma axis_translations_run_hooks_witness :
  sample_heap !! 0%nat =
    Some (OTranslator (mkRecordTranslator (JRef 1%nat) sample_rows sample_columns)) /\
  toPhysicalRow plus10_hooks 0%nat (JNum 2) sample_heap =
    plus10_hooks (JRef 1%nat) "modifyRow" (getPhysicalIndex sample_rows (JNum 2))
      sample_heap.
Proof.
  split; [reflexivity|].
  exact (proj1 (proj2 (proj2 (axis_translations_run_hooks plus10_hooks 0%nat
           (mkRecordTranslator (JRef 1%nat) sample_rows sample_columns)
           sample_heap (JNum 2) eq_refl)))).
Defined.

(** C2: the two call shapes agree. [toVisual(r, c)] is the pair
    [[toVisualRow(r), toVisualColumn(c)]] and [toVisual(obj)], for a
    coordinate object [obj] with [obj.row = r] and [obj.column = c], is the
    object [{row: toVisualRow(r), column: toVisualColumn(c)}] computed from
    the same state; the same holds for [toPhysical]. The hooks are assumed
    not to modify [obj] (an effect only the object shape could observe),
    and [r] is a row index, not itself a coordinate object. *)
Theorem coordinate_shapes_agree
    (runHooks : jsval -> string -> jsval -> ST heap jsval)
    (t l : loc) (fs : list (string * jsval)) (r c x : jsval) (h : heap)
    (Hl : h !! l = Some (OPlain fs))
    (Hr : field_lookup "row" fs = r) (Hc : field_lookup "column" fs = c)
    (Hrow : isObject h r = false) (Hk : hooks_keep runHooks l) :
  toVisual runHooks t r c h =
    (vr <- toVisualRow runHooks t r ;; vc <- toVisualColumn runHooks t c ;;
     ret (CPair vr vc)) h /\
  toVisual runHooks t (JRef l) x h =
    (vr <- toVisualRow runHooks t r ;; vc <- toVisualColumn runHooks t c ;;
     ret (CObj vr vc)) h /\
  toPhysical runHooks t r c h =
    (pr <- toPhysicalRow runHooks t r ;; pc <- toPhysicalColumn runHooks t c ;;
     ret (CPair pr pc)) h /\
  toPhysical runHooks t (JRef l) x h =
    (pr <- toPhysicalRow runHooks t r ;; pc <- toPhysicalColumn runHooks t c ;;
     ret (CObj pr pc)) h.
Proof.
  subst r c. split; [|split; [|split]].
  - apply toVisual_scalar. exact Hrow.
  - apply toVisual_object; assumption.
  - apply toPhysical_scalar. exact Hrow.
  - apply toPhysical_object; assumption.
Qed.

Lemma plus10_hooks_keep (l : loc) : hooks_keep plus10_hooks l.
Proof.
  intros hv name v h1 v' h2. unfold plus10_hooks.
  destruct (String.eqb name "modifyRow"); [destruct v|];
    intros H; injection H as _ <-; reflexivity.
Qed.

Lemma coordinate_shapes_agree_witness :
  toPhysical plus10_hooks 0%nat (JNum 3) (JNum 1) sample_heap
    = Ok (CPair (JNum 14) (JNum 1)) sample_heap /\
  toPhysical plus10_hooks 0%nat (JRef 3%nat) JUndefined sample_heap
    = Ok (CObj (JNum 14) (JNum 1)) sample_heap.
Proof.
  destruct (coordinate_shapes_agree plus10_hooks 0%nat 3%nat
              [("row", JNum 3); ("column", JNum 1)] (JNum 3) (JNum 1)
              JUndefined sample_heap eq_refl eq_refl eq_refl eq_refl
              (plus10_hooks_keep 3%nat)) as (_ & _ & Hp & Ho).
  rewrite Hp, Ho. split; reflexivity.
Defined.

(** C7: when the first argument is not object-like, [toVisual] and
    [toPhysical] take the scalar-pair form: the first argument is the row,
    the second the column, the result the two-element pair; the shape
    dispatch itself raises nothing. *)
Theorem non_object_is_scalar_pair
    (runHooks : jsval -> string -> jsval -> ST heap jsval)
    (t : loc) (v column : jsval) (h : heap) (Hv : isObject h v = false) :
  toVisual runHooks t v column h =
    (vr <- toVisualRow runHooks t v ;; vc <- toVisualColumn runHooks t column ;;
     ret (CPair vr vc)) h /\
  toPhysical runHooks t v column h =
    (pr <- toPhysicalRow runHooks t v ;; pc <- toPhysicalColumn runHooks t column ;;
     ret (CPair pr pc)) h.
Proof. split; [apply toVisual_scalar | apply toPhysical_scalar]; exact Hv. Qed.

Lemma non_object_is_scalar_pair_witness :
  isObject sample_heap (JStr "3") = false /\
  toVisual plus10_hooks 0%nat (JStr "3") (JNum 2) sample_heap
    = Ok (CPair unmapped (JNum 2)) sample_heap.
Proof.
  split; [reflexivity|].
  rewrite (proj1 (non_object_is_scalar_pair plus10_hooks 0%nat (JStr "3") (JNum 2)
                    sample_heap eq_refl)).
  reflexivity.
Defined.

(** C8: the six skip accessors are pass-throughs to the axis' IndexMapper:
    the getters return exactly what [getSkippedIndexes] and [isSkipped] of
    the mapper return, leaving the heap as it is; the setters hand their
    list unchanged to [setSkippedIndexes] of the mapper and change nothing
    else. *)
Theorem skip_accessors_delegate (t : loc) (rt : RecordTranslator) (h : heap)
    (index : jsval) (indexes : list Z)
    (Ht : h !! t = Some (OTranslator rt)) :
  getSkippedRows t h = Ok (getSkippedIndexes (rowIndexMapper rt)) h /\
  getSkippedColumns t h = Ok (getSkippedIndexes (columnIndexMapper rt)) h /\
  isSkippedRow t index h = Ok (isSkipped (rowIndexMapper rt) index) h /\
  isSkippedColumn t index h = Ok (isSkipped (columnIndexMapper rt) index) h /\
  setSkippedRows t indexes h =
    Ok tt (<[t := OTranslator (mkRecordTranslator (hot rt)
                  (setSkippedIndexes (rowIndexMapper rt) indexes)
                  (columnIndexMapper rt))]> h) /\
  setSkippedColumns t indexes h =
    Ok tt (<[t := OTranslator (mkRecordTranslator (hot rt)
                  (rowIndexMapper rt)
                  (setSkippedIndexes (columnIndexMapper rt) indexes))]> h).
Proof.
  unfold getSkippedRows, getSkippedColumns, isSkippedRow, isSkippedColumn,
    setSkippedRows, setSkippedColumns, bind.
  rewrite (get_this_ok t rt h Ht). repeat split.
Qed.

Lemma skip_accessors_delegate_witness :
  sample_heap !! 0%nat =
    Some (OTranslator (mkRecordTranslator (JRef 1%nat) sample_rows sample_columns)) /\
  getSkippedRows 0%nat sample_heap = Ok [1] sample_heap /\
  isSkippedRow 0%nat (JNum 1) sample_heap = Ok true sample_heap.
Proof.
  destruct (skip_accessors_delegate 0%nat
              (mkRecordTranslator (JRef 1%nat) sample_rows sample_columns)
              sample_heap (JNum 1) [] eq_refl) as (Hg & _ & Hi & _).
  split; [reflexivity|]. rewrite Hg, Hi. split; reflexivity.
Defined.

(** C9: an unmapped answer of the IndexMapper is not short-circuited: the
    matching hook still receives the sentinel, and whatever it returns is
    the result. *)
Theorem unmapped_passes_through_hooks
    (runHooks : jsval -> string -> jsval -> ST heap jsval)
    (t : loc) (rt : RecordTranslator) (h : heap) (index : jsval)
    (Ht : h !! t = Some (OTranslator rt)) :
  (getVisualIndex (rowIndexMapper rt) index = unmapped ->
   toVisualRow runHooks t index h = runHooks (hot rt) "unmodifyRow" unmapped h) /\
  (getVisualIndex (columnIndexMapper rt) index = unmapped ->
   toVisualColumn runHooks t index h = runHooks (hot rt) "unmodifyCol" unmapped h) /\
  (getPhysicalIndex (rowIndexMapper rt) index = unmapped ->
   toPhysicalRow runHooks t index h = runHooks (hot rt) "modifyRow" unmapped h) /\
  (getPhysicalIndex (columnIndexMapper rt) index = unmapped ->
   toPhysicalColumn runHooks t index h = runHooks (hot rt) "modifyCol" unmapped h).
Proof.
  unfold toVisualRow, toVisualColumn, toPhysicalRow, toPhysicalColumn, bind.
  rewrite (get_this_ok t rt h Ht).
  repeat split; intros Hu; rewrite Hu; reflexivity.
Qed.

(** With hooks mapping the sentinel to 0, the skipped physical row 1 comes
    out as visual row 0, not as the sentinel. *)
Lemma unmapped_passes_through_hooks_witness :
  getVisualIndex sample_rows (JNum 1) = unmapped /\
  toVisualRow sentinel_hooks 0%nat (JNum 1) sample_heap = Ok (JNum 0) sample_heap.
Proof.
  split; [reflexivity|].
  rewrite (proj1 (unmapped_passes_through_hooks sentinel_hooks 0%nat
             (mkRecordTranslator (JRef 1%nat) sample_rows sample_columns)
             sample_heap (JNum 1) eq_refl) eq_refl).
  reflexivity.
Defined.

(* ------------------------------------------------------------------ *)
(** ** The registry *)

Lemma resolveInstance_resolved (identity : jsval) (s : state) :
  resolveInstance identity s =
  match resolved s identity with
  | Some v => Ok v s
  | None => Throw ENotRegistered s
  end.
Proof.
  unfold resolveInstance, resolved, getIdentity, bind, get, ret, throw.
  destruct (instanceofCore (st_heap s) identity); [reflexivity|].
  destruct (weak_has (identities s) identity); reflexivity.
Qed.

(** [getTranslator] in one step: resolve, then return the cached
    translator or allocate and cache a new one. *)
Lemma getTranslator_unfold (identity : jsval) (s : state) :
  getTranslator identity s =
  match resolved s identity with
  | None => Throw ENotRegistered s
  | Some (JRef l) =>
      match translatorSingletons s !! l with
      | Some t => Ok t s
      | None =>
          Ok (fresh (dom (st_heap s)))
             (mkState (<[fresh (dom (st_heap s)) :=
                          OTranslator (newRecordTranslator (JRef l))]> (st_heap s))
                      (identities s)
                      (<[l := fresh (dom (st_heap s))]> (translatorSingletons s)))
      end
  | Some inst =>
      Throw ETypeError
        (set_heap s (<[fresh (dom (st_heap s)) :=
                        OTranslator (newRecordTranslator inst)]> (st_heap s)))
  end.
Proof.
  unfold getTranslator. unfold bind at 1. rewrite resolveInstance_resolved.
  destruct (resolved s identity) as [inst|]; [|reflexivity].
  unfold bind, get, ret, alloc, set_singleton, put, throw.
  destruct inst as [| | b | z | str | l]; simpl; try reflexivity.
  destruct (translatorSingletons s !! l) as [t|]; reflexivity.
Qed.

Lemma fresh_not_in_heap (h : heap) : h !! fresh (dom h) = None.
Proof. apply not_elem_of_dom_1, is_fresh. Qed.

(** Allocating a translator changes no answer of [instanceof Core]. *)
Lemma instanceofCore_alloc (h : heap) (rt : RecordTranslator) (v : jsval) :
  instanceofCore (<[fresh (dom h) := OTranslator rt]> h) v = instanceofCore h v.
Proof.
  destruct v as [| | | | | l]; try reflexivity. simpl.
  destruct (decide (fresh (dom h) = l)) as [<-|Hne].
  - rewrite lookup_insert_eq, fresh_not_in_heap. reflexivity.
  - rewrite lookup_insert_ne by exact Hne. reflexivity.
Qed.

(** What a call of [getTranslator] leaves of the state: the identities,
    the answers of [instanceof Core], and every cached translator. *)
Lemma getTranslator_keeps (identity : jsval) (s : state) :
  identities (final_state (getTranslator identity s)) = identities s /\
  (forall v, instanceofCore (st_heap (final_state (getTranslator identity s))) v
             = instanceofCore (st_heap s) v) /\
  (forall l t, translatorSingletons s !! l = Some t ->
     translatorSingletons (final_state (getTranslator identity s)) !! l = Some t).
Proof.
  rewrite getTranslator_unfold.
  destruct (resolved s identity) as [[| | b | z | str | l']|];
    [..|destruct (translatorSingletons s !! l') as [t'|] eqn:Hl'|];
    simpl; (split; [reflexivity|split; [intros v|intros l t Hl]]);
    try apply instanceofCore_alloc; try reflexivity; try exact Hl.
  destruct (decide (l' = l)) as [<-|Hne].
  - congruence.
  - rewrite lookup_insert_ne by exact Hne. exact Hl.
Qed.

Lemma resolved_after_getTranslator (a b : jsval) (s : state) :
  resolved (final_state (getTranslator a s)) b = resolved s b.
Proof.
  destruct (getTranslator_keeps a s) as (Hid & Hcore & _).
  unfold resolved. rewrite Hid, Hcore. reflexivity.
Qed.

(** A call resolving to a cached host returns the cached translator and
    leaves the state as it is. *)
Lemma getTranslator_cached (identity : jsval) (s : state) (l t : loc) :
  resolved s identity = Some (JRef l) ->
  translatorSingletons s !! l = Some t ->
  getTranslator identity s = Ok t s.
Proof. intros Hr Ht. rewrite getTranslator_unfold, Hr, Ht. reflexivity. Qed.

(** A successful call caches its result for the resolved host. *)
Lemma getTranslator_caches (identity : jsval) (s s' : state) (l t : loc) :
  resolved s identity = Some (JRef l) ->
  getTranslator identity s = Ok t s' ->
  translatorSingletons s' !! l = Some t.
Proof.
  intros Hr. rewrite getTranslator_unfold, Hr.
  destruct (translatorSingletons s !! l) as [t'|] eqn:Hl; intros H;
    injection H as <- <-; simpl; [exact Hl | apply lookup_insert_eq].
Qed.

(** Any step of a client program keeps every cached translator. *)
Lemma exec_op_keeps_singletons (o : op) (s : state) (l t : loc) :
  translatorSingletons s !! l = Some t ->
  translatorSingletons (exec_op o s) !! l = Some t.
Proof.
  intros Hl. destruct o as [k hv | k | f]; simpl.
  - unfold registerIdentity, bind, get, put, throw.
    destruct k; exact Hl.
  - exact (proj2 (proj2 (getTranslator_keeps k s)) l t Hl).
  - exact Hl.
Qed.

Lemma run_ops_keeps_singletons (ops : list op) (s : state) (l t : loc) :
  translatorSingletons s !! l = Some t ->
  translatorSingletons (run_ops ops s) !! l = Some t.
Proof.
  revert s. induction ops as [|o ops IH]; intros s Hl; simpl.
  - exact Hl.
  - apply IH, exec_op_keeps_singletons, Hl.
Qed.

(** A step that does not register [identity] keeps it unregistered. *)
Lemma exec_op_keeps_unregistered (o : op) (s : state) (identity : jsval) :
  (forall hv, o <> OpRegister identity hv) ->
  weak_has (identities s) identity = false ->
  weak_has (identities (exec_op o s)) identity = false.
Proof.
  intros Ho Hu. destruct o as [k hv | k | f]; simpl.
  - unfold registerIdentity, bind, get, put, throw.
    destruct k as [| | | | | l]; simpl; try exact Hu.
    destruct identity as [| | | | | l']; simpl in *; try reflexivity.
    destruct (decide (l = l')) as [<-|Hne].
    + exfalso. exact (Ho hv eq_refl).
    + rewrite lookup_insert_ne by exact Hne. exact Hu.
  - rewrite (proj1 (getTranslator_keeps k s)). exact Hu.
  - exact Hu.
Qed.

Lemma run_ops_keeps_unregistered (ops : list op) (s : state) (identity : jsval) :
  (forall hv, ~ In (OpRegister identity hv) ops) ->
  weak_has (identities s) identity = false ->
  weak_has (identities (run_ops ops s)) identity = false.
Proof.
  revert s. induction ops as [|o ops IH]; intros s Hn Hu; simpl.
  - exact Hu.
  - apply IH.
    + intros hv Hin. exact (Hn hv (or_intror Hin)).
    + apply exec_op_keeps_unregistered; [|exact Hu].
      intros hv ->. exact (Hn hv (or_introl eq_refl)).
Qed.

(** Two identities resolving to one host get one translator. *)
Lemma getTranslator_shared (a b : jsval) (s s2 : state) (l t : loc) :
  resolved s a = Some (JRef l) -> resolved s b = Some (JRef l) ->
  getTranslator a s = Ok t s2 -> getTranslator b s2 = Ok t s2.
Proof.
  intros Ha Hb Hg. apply (getTranslator_cached b s2 l t).
  - pose proof (resolved_after_getTranslator a b s) as Hr.
    rewrite Hg in Hr. simpl in Hr. rewrite Hr. exact Hb.
  - exact (getTranslator_caches a s s2 l t Ha Hg).
Qed.

(** After [registerIdentity(key, host)] for an object [key] that is not a
    [Core] instance, [key] resolves to [host]. *)
Lemma registerIdentity_resolves (key : loc) (hv : jsval) (s s1 : state) :
  instanceofCore (st_heap s) (JRef key) = false ->
  registerIdentity (JRef key) hv s = Ok tt s1 ->
  resolved s1 (JRef key) = Some hv /\ st_heap s1 = st_heap s /\
  translatorSingletons s1 = translatorSingletons s.
Proof.
  intros Hk Hreg. unfold registerIdentity, bind, get, put in Hreg.
  injection Hreg as <-. unfold resolved, set_identities.
  cbn [st_heap identities translatorSingletons weak_has weak_get].
  rewrite Hk, lookup_insert_eq. repeat split.
Qed.

(** [registerIdentity] with a key that is not an object throws a
    [TypeError] ([WeakMap.prototype.set]) and registers nothing. *)
Lemma registerIdentity_primitive_key (key v : jsval) (s : state) :
  (forall l, key <> JRef l) -> registerIdentity key v s = Throw ETypeError s.
Proof.
  intros Hkey. unfold registerIdentity, bind, get, throw.
  destruct key as [| | | | | l]; try reflexivity. exfalso. exact (Hkey l eq_refl).
Qed.

(** A call resolving to an object succeeds and leaves the result cached
    for it; when nothing was cached, the result is newly allocated. *)
Lemma getTranslator_resolved_ok (identity : jsval) (s : state) (l : loc) :
  resolved s identity = Some (JRef l) ->
  exists t s', getTranslator identity s = Ok t s' /\
    translatorSingletons s' !! l = Some t /\
    (translatorSingletons s !! l = None ->
       st_heap s !! t = None /\
       st_heap s' !! t = Some (OTranslator (newRecordTranslator (JRef l)))).
Proof.
  intros Hr. rewrite getTranslator_unfold, Hr.
  destruct (translatorSingletons s !! l) as [t|] eqn:Hl.
  - exists t, s. split; [reflexivity|]. split; [exact Hl | discriminate].
  - eexists. eexists. split; [reflexivity|]. simpl.
    split; [apply lookup_insert_eq|]. intros _.
    split; [apply fresh_not_in_heap | apply lookup_insert_eq].
Qed.

(* ------------------------------------------------------------------ *)
(** ** Claims on the registry *)

(** C4: an identity never passed to [registerIdentity] by a client program
    run from the module's initial state, and not itself a [Core] instance,
    makes [getTranslator] throw the "not registered" error. *)
Theorem unregistered_identity_rejected (h0 : heap) (ops : list op)
    (identity : jsval)
    (Hnever : forall hv, ~ In (OpRegister identity hv) ops)
    (Hcore : instanceofCore (st_heap (run_ops ops (init_state h0))) identity
             = false) :
  getTranslator identity (run_ops ops (init_state h0)) =
    Throw ENotRegistered (run_ops ops (init_state h0)).
Proof.
  rewrite getTranslator_unfold. unfold resolved. rewrite Hcore.
  rewrite (run_ops_keeps_unregistered ops (init_state h0) identity Hnever).
  - reflexivity.
  - destruct identity; reflexivity.
Qed.

Lemma unregistered_identity_rejected_witness :
  getTranslator (JRef 0%nat)
    (run_ops [OpRegister (JRef 3%nat) (JRef 1%nat); OpGet (JRef 1%nat)]
             (init_state sample_heap)) =
  Throw ENotRegistered
    (run_ops [OpRegister (JRef 3%nat) (JRef 1%nat); OpGet (JRef 1%nat)]
             (init_state sample_heap)).
Proof.
  apply unregistered_identity_rejected.
  - intros hv [H|[H|[]]]; discriminate.
  - reflexivity.
Defined.

(** C5: the first call of [getTranslator] resolving to a host allocates a
    new [RecordTranslator] for it; from then on, whatever a client program
    does, every call resolving to that host returns that same instance and
    allocates nothing. *)
Theorem translator_created_once (s : state) (identity : jsval) (l : loc)
    (Hres : resolved s identity = Some (JRef l))
    (Hnone : translatorSingletons s !! l = None) :
  exists t s1,
    getTranslator identity s = Ok t s1 /\
    st_heap s !! t = None /\
    st_heap s1 !! t = Some (OTranslator (newRecordTranslator (JRef l))) /\
    forall ops identity',
      resolved (run_ops ops s1) identity' = Some (JRef l) ->
      getTranslator identity' (run_ops ops s1) = Ok t (run_ops ops s1).
Proof.
  rewrite getTranslator_unfold, Hres, Hnone.
  eexists. eexists. split; [reflexivity|].
  split; [apply fresh_not_in_heap|]. split; [apply lookup_insert_eq|].
  intros ops identity' Hres'. apply (getTranslator_cached _ _ l); [exact Hres'|].
  apply run_ops_keeps_singletons. apply lookup_insert_eq.
Qed.

Lemma translator_created_once_witness :
  exists t s1,
    getTranslator (JRef 1%nat) (init_state sample_heap) = Ok t s1 /\
    st_heap (init_state sample_heap) !! t = None /\
    st_heap s1 !! t = Some (OTranslator (newRecordTranslator (JRef 1%nat))) /\
    forall ops identity',
      resolved (run_ops ops s1) identity' = Some (JRef 1%nat) ->
      getTranslator identity' (run_ops ops s1) = Ok t (run_ops ops s1).
Proof.
  apply translator_created_once; reflexivity.
Defined.

(** C6, as stated: after [registerIdentity(key, host)], [getTranslator(key)]
    succeeds and returns the translator of [host]. It fails for a [key]
    that is itself a [Core] instance: [getTranslator] then ignores the
    registration and returns the translator of [key]. *)
Lemma registered_core_key_counterexample :
  ~ (forall (key hv : jsval) (s s1 : state),
       registerIdentity key hv s = Ok tt s1 ->
       exists t s2, getTranslator key s1 = Ok t s2 /\
                    weak_get (translatorSingletons s2) hv = Some t).
Proof.
  intros H.
  destruct (H (JRef 1%nat) (JRef 2%nat) (init_state sample_heap) _ eq_refl)
    as (t & s2 & Hg & Hw).
  vm_compute in Hg. injection Hg as <- <-. vm_compute in Hw. discriminate.
Qed.

(** C6, amended. For an object [key] and an object [host]:
    - if [key] is not a [Core] instance, [registerIdentity(key, host)]
      succeeds and [getTranslator(key)] then succeeds and returns the
      translator cached for [host]; when [host] had none, it is a newly
      allocated [RecordTranslator] with [hot = host];
    - if [key] is a [Core] instance, the registration (to any value) is not
      consulted: [getTranslator(key)] succeeds and returns the translator
      cached for [key] itself, newly allocated with [hot = key] when [key]
      had none;
    - a [key] that is not an object makes [registerIdentity] throw a
      [TypeError]; a [host] that is not an object makes the following
      [getTranslator(key)] throw a [TypeError] and cache nothing. *)
Theorem registered_object_key_resolves_to_host (s : state) :
  (forall key hv, instanceofCore (st_heap s) (JRef key) = false ->
     exists s1, registerIdentity (JRef key) (JRef hv) s = Ok tt s1 /\
     exists t s2, getTranslator (JRef key) s1 = Ok t s2 /\
       translatorSingletons s2 !! hv = Some t /\
       (translatorSingletons s !! hv = None ->
          st_heap s !! t = None /\
          st_heap s2 !! t = Some (OTranslator (newRecordTranslator (JRef hv))))) /\
  (forall key hv, instanceofCore (st_heap s) (JRef key) = true ->
     exists s1, registerIdentity (JRef key) hv s = Ok tt s1 /\
     exists t s2, getTranslator (JRef key) s1 = Ok t s2 /\
       translatorSingletons s2 !! key = Some t /\
       (translatorSingletons s !! key = None ->
          st_heap s !! t = None /\
          st_heap s2 !! t = Some (OTranslator (newRecordTranslator (JRef key))))) /\
  (forall key hv, (forall l, key <> JRef l) ->
     registerIdentity key hv s = Throw ETypeError s) /\
  (forall key hv, instanceofCore (st_heap s) (JRef key) = false ->
     (forall l, hv <> JRef l) ->
     exists s1, registerIdentity (JRef key) hv s = Ok tt s1 /\
     exists s2, getTranslator (JRef key) s1 = Throw ETypeError s2 /\
       translatorSingletons s2 = translatorSingletons s).
Proof.
  split; [|split; [|split]].
  - intros key hv Hk. eexists. split; [reflexivity|].
    destruct (registerIdentity_resolves key (JRef hv) s _ Hk eq_refl)
      as (Hres & Hheap & Hsing).
    destruct (getTranslator_resolved_ok _ _ hv Hres) as (t & s2 & Hg & Hc & Hn).
    exists t, s2. split; [exact Hg|]. split; [exact Hc|].
    rewrite <- Hsing, <- Hheap. exact Hn.
  - intros key hv Hk. eexists. split; [reflexivity|].
    assert (Hres : resolved (set_identities s (<[key := hv]> (identities s)))
                     (JRef key) = Some (JRef key)).
    { unfold resolved. simpl in *. rewrite Hk. reflexivity. }
    exact (getTranslator_resolved_ok _ _ key Hres).
  - intros key hv Hkey. exact (registerIdentity_primitive_key key hv s Hkey).
  - intros key hv Hk Hv. eexists. split; [reflexivity|].
    destruct (registerIdentity_resolves key hv s _ Hk eq_refl)
      as (Hres & _ & Hsing).
    rewrite getTranslator_unfold, Hres.
    destruct hv as [| | | | | l]; try (exfalso; exact (Hv l eq_refl));
      eexists; (split; [reflexivity | exact Hsing]).
Qed.

Lemma registered_object_key_resolves_to_host_witness :
  exists s1, registerIdentity (JRef 3%nat) (JRef 1%nat) (init_state sample_heap)
               = Ok tt s1 /\
  exists t s2, getTranslator (JRef 3%nat) s1 = Ok t s2 /\
    translatorSingletons s2 !! 1%nat = Some t /\
    (translatorSingletons (init_state sample_heap) !! 1%nat = None ->
       st_heap (init_state sample_heap) !! t = None /\
       st_heap s2 !! t = Some (OTranslator (newRecordTranslator (JRef 1%nat)))).
Proof.
  exact (proj1 (registered_object_key_resolves_to_host (init_state sample_heap))
           3%nat 1%nat eq_refl).
Defined.

(** C10, as stated: after [registerIdentity(k, h)] for a [Core] instance
    [h], [getTranslator(k)] and [getTranslator(h)] return one translator.
    It fails when [k] is itself a [Core] instance: [k] keeps its own
    translator. *)
Lemma core_key_keeps_own_translator :
  ~ (forall (k hv : jsval) (s s1 : state),
       instanceofCore (st_heap s) hv = true ->
       registerIdentity k hv s = Ok tt s1 ->
       forall t s2, getTranslator k s1 = Ok t s2 ->
                    getTranslator hv s2 = Ok t s2).
Proof.
  intros H.
  pose proof (H (JRef 1%nat) (JRef 2%nat) (init_state sample_heap) _
                eq_refl eq_refl 4%nat _ eq_refl) as Hg.
  vm_compute in Hg. discriminate.
Qed.

(** C10, amended. Singletons are keyed by the resolved host. For a [Core]
    instance [h]:
    - for a key [k] that is an object but not a [Core] instance, after
      [registerIdentity(k, h)] the calls [getTranslator(k)] and
      [getTranslator(h)] both succeed and return the same translator, in
      either order;
    - in any state where two such keys [k1] and [k2] are registered to [h],
      [getTranslator(k1)], [getTranslator(k2)] and [getTranslator(h)] all
      succeed and return the same translator;
    - a key [c] that is itself a [Core] instance keeps its own translator
      whatever it is registered to: after [registerIdentity(c, v)],
      [getTranslator(c)] succeeds, returns the translator cached for [c],
      and returns the same translator as it would have without the
      registration. *)
Theorem registered_key_shares_host_translator :
  (forall s k hl s1,
     instanceofCore (st_heap s) (JRef k) = false ->
     instanceofCore (st_heap s) (JRef hl) = true ->
     registerIdentity (JRef k) (JRef hl) s = Ok tt s1 ->
     (exists t s2, getTranslator (JRef k) s1 = Ok t s2 /\
                   getTranslator (JRef hl) s2 = Ok t s2) /\
     (exists t s2, getTranslator (JRef hl) s1 = Ok t s2 /\
                   getTranslator (JRef k) s2 = Ok t s2)) /\
  (forall s k1 k2 hl,
     instanceofCore (st_heap s) (JRef k1) = false ->
     instanceofCore (st_heap s) (JRef k2) = false ->
     instanceofCore (st_heap s) (JRef hl) = true ->
     identities s !! k1 = Some (JRef hl) ->
     identities s !! k2 = Some (JRef hl) ->
     exists t s2, getTranslator (JRef k1) s = Ok t s2 /\
                  getTranslator (JRef k2) s2 = Ok t s2 /\
                  getTranslator (JRef hl) s2 = Ok t s2) /\
  (forall s c v s1,
     instanceofCore (st_heap s) (JRef c) = true ->
     registerIdentity (JRef c) v s = Ok tt s1 ->
     exists t s2 s0, getTranslator (JRef c) s1 = Ok t s2 /\
       translatorSingletons s2 !! c = Some t /\
       getTranslator (JRef c) s = Ok t s0).
Proof.
  split; [|split].
  - intros s k hl s1 Hk Hh Hreg.
    destruct (registerIdentity_resolves k (JRef hl) s s1 Hk Hreg)
      as (Hrk & Hheap & _).
    assert (Hrh : resolved s1 (JRef hl) = Some (JRef hl)).
    { unfold resolved. rewrite Hheap, Hh. reflexivity. }
    split.
    + destruct (getTranslator_resolved_ok _ _ hl Hrk) as (t & s2 & Hg & _).
      exists t, s2. split; [exact Hg|].
      exact (getTranslator_shared _ _ _ _ hl t Hrk Hrh Hg).
    + destruct (getTranslator_resolved_ok _ _ hl Hrh) as (t & s2 & Hg & _).
      exists t, s2. split; [exact Hg|].
      exact (getTranslator_shared _ _ _ _ hl t Hrh Hrk Hg).
  - intros s k1 k2 hl Hk1 Hk2 Hh Hid1 Hid2.
    assert (Hr1 : resolved s (JRef k1) = Some (JRef hl)).
    { unfold resolved. rewrite Hk1. simpl. rewrite Hid1. reflexivity. }
    assert (Hr2 : resolved s (JRef k2) = Some (JRef hl)).
    { unfold resolved. rewrite Hk2. simpl. rewrite Hid2. reflexivity. }
    assert (Hrh : resolved s (JRef hl) = Some (JRef hl)).
    { unfold resolved. rewrite Hh. reflexivity. }
    destruct (getTranslator_resolved_ok _ _ hl Hr1) as (t & s2 & Hg & _).
    exists t, s2. split; [exact Hg|]. split.
    + exact (getTranslator_shared _ _ _ _ hl t Hr1 Hr2 Hg).
    + exact (getTranslator_shared _ _ _ _ hl t Hr1 Hrh Hg).
  - intros s c v s1 Hc Hreg.
    unfold registerIdentity, bind, get, put in Hreg. injection Hreg as <-.
    assert (Hr : resolved s (JRef c) = Some (JRef c)).
    { unfold resolved. rewrite Hc. reflexivity. }
    assert (Hr1 : resolved (set_identities s (<[c := v]> (identities s)))
                    (JRef c) = Some (JRef c)).
    { unfold resolved. simpl in *. rewrite Hc. reflexivity. }
    destruct (getTranslator_resolved_ok _ _ c Hr1) as (t & s2 & Hg & Hcache & _).
    destruct (getTranslator_resolved_ok _ _ c Hr) as (t0 & s0 & Hg0 & _).
    exists t, s2, s0. split; [exact Hg|]. split; [exact Hcache|].
    assert (Ht : t0 = t).
    { rewrite getTranslator_unfold, Hr in Hg0.
      rewrite getTranslator_unfold, Hr1 in Hg. simpl in Hg.
      destruct (translatorSingletons s !! c); injection Hg0 as <- _;
        injection Hg as <- _; reflexivity. }
    rewrite <- Ht. exact Hg0.
Qed.

(** Two plain-object keys 3 and 5 registered to the [Core] instance 1. *)
Lemma registered_key_shares_host_translator_witness :
  exists t s2,
    getTranslator (JRef 3%nat)
      (mkState (<[5%nat := OPlain []]> sample_heap)
               (<[5%nat := JRef 1%nat]> {[3%nat := JRef 1%nat]}) ∅) = Ok t s2 /\
    getTranslator (JRef 5%nat) s2 = Ok t s2 /\
    getTranslator (JRef 1%nat) s2 = Ok t s2.
Proof.
  exact (proj1 (proj2 registered_key_shares_host_translator)
    (mkState (<[5%nat := OPlain []]> sample_heap)
             (<[5%nat := JRef 1%nat]> {[3%nat := JRef 1%nat]}) ∅)
    3%nat 5%nat 1%nat eq_refl eq_refl eq_refl eq_refl eq_refl).
Defined.

(* ================================================================== *)
(** * Further properties of the registry *)

(** [getIdentity] returns the registered value, or throws "not registered"
    when the key has none (always for a primitive key); the state is left
    as it is either way. *)
Theorem getIdentity_lookup (key : jsval) (s : state) :
  getIdentity key s =
  match weak_get (identities s) key with
  | Some v => Ok v s
  | None => Throw ENotRegistered s
  end.
Proof.
  unfold getIdentity, bind, get, ret, throw, weak_has, weak_get.
  destruct key as [| | | | | l]; try reflexivity.
  destruct (identities s !! l) as [v|]; reflexivity.
Qed.

(** [registerIdentity] then [getIdentity] on an object key gives back the
    registered value, whatever it is. *)
Theorem registerIdentity_getIdentity (key : loc) (v : jsval) (s s1 : state)
    (Hreg : registerIdentity (JRef key) v s = Ok tt s1) :
  getIdentity (JRef key) s1 = Ok v s1.
Proof.
  unfold registerIdentity, bind, get, put in Hreg. injection Hreg as <-.
  rewrite getIdentity_lookup. simpl. rewrite lookup_insert_eq. reflexivity.
Qed.

Lemma registerIdentity_getIdentity_witness :
  registerIdentity (JRef 3%nat) (JNum 7) (init_state sample_heap)
    = Ok tt (set_identities (init_state sample_heap) {[3%nat := JNum 7]}) /\
  getIdentity (JRef 3%nat)
    (set_identities (init_state sample_heap) {[3%nat := JNum 7]})
    = Ok (JNum 7) (set_identities (init_state sample_heap) {[3%nat := JNum 7]}).
Proof.
  split; [reflexivity|]. apply (registerIdentity_getIdentity 3%nat (JNum 7) (init_state sample_heap)). reflexivity.
Defined.

(** Registering a key again replaces its value, and registering a key
    leaves the value or the "not registered" error of every other key as
    it was. *)
Theorem registerIdentity_last_wins_others_kept (key : loc) (v1 v2 : jsval)
    (s s1 s2 : state)
    (H1 : registerIdentity (JRef key) v1 s = Ok tt s1)
    (H2 : registerIdentity (JRef key) v2 s1 = Ok tt s2) :
  getIdentity (JRef key) s2 = Ok v2 s2 /\
  forall other, other <> JRef key ->
    (forall v, getIdentity other s = Ok v s -> getIdentity other s1 = Ok v s1) /\
    (getIdentity other s = Throw ENotRegistered s ->
     getIdentity other s1 = Throw ENotRegistered s1).
Proof.
  split; [exact (registerIdentity_getIdentity key v2 s1 s2 H2)|].
  intros other Hne.
  unfold registerIdentity, bind, get, put in H1. injection H1 as <-.
  rewrite !getIdentity_lookup.
  assert (Hw : weak_get (identities (set_identities s (<[key:=v1]> (identities s))))
                 other = weak_get (identities s) other).
  { destruct other as [| | | | | l]; try reflexivity. simpl.
    apply lookup_insert_ne. congruence. }
  rewrite Hw. destruct (weak_get (identities s) other) as [w|];
    split; [intros v' H | intros H | intros v' H | intros H];
    try discriminate; try reflexivity.
  injection H as <-. reflexivity.
Qed.

Lemma registerIdentity_last_wins_others_kept_witness :
  getIdentity (JRef 3%nat)
    (set_identities (init_state sample_heap) {[3%nat := JRef 2%nat]})
  = Ok (JRef 2%nat) (set_identities (init_state sample_heap) {[3%nat := JRef 2%nat]}).
Proof.
  refine (proj1 (registerIdentity_last_wins_others_kept 3%nat (JRef 1%nat) (JRef 2%nat)
    (init_state sample_heap)
    (set_identities (init_state sample_heap)
       ({[3%nat := JRef 1%nat]} : gmap loc jsval))
    (set_identities (init_state sample_heap)
       ({[3%nat := JRef 2%nat]} : gmap loc jsval)) _ _));
    vm_compute; reflexivity.
Defined.

(** [getTranslator] never changes the registrations, whether it returns or
    throws. *)
Theorem getTranslator_keeps_identities (identity : jsval) (s : state) :
  identities (final_state (getTranslator identity s)) = identities s.
Proof. exact (proj1 (getTranslator_keeps identity s)). Qed.

(** No client program (registrations, lookups, any code writing the heap)
    ever removes or replaces a translator once cached for a host. *)
Theorem cached_translator_never_replaced (ops : list op) (s : state)
    (l t : loc) (Hl : translatorSingletons s !! l = Some t) :
  translatorSingletons (run_ops ops s) !! l = Some t.
Proof. exact (run_ops_keeps_singletons ops s l t Hl). Qed.

Lemma cached_translator_never_replaced_witness :
  translatorSingletons
    (run_ops [OpRegister (JRef 3%nat) (JRef 2%nat); OpGet (JRef 3%nat);
              OpHeap (fun _ => ∅)]
             (mkState sample_heap ∅ {[1%nat := 0%nat]})) !! 1%nat = Some 0%nat.
Proof. apply cached_translator_never_replaced. reflexivity. Defined.

(** A key registered to a value that is not an object: [getTranslator(key)]
    builds a [RecordTranslator] for it, then [translatorSingletons.set]
    throws a [TypeError]; nothing is cached and no registration changes,
    so every such call allocates and throws again. *)
Theorem getTranslator_primitive_host (key : loc) (v : jsval) (s s1 : state)
    (Hk : instanceofCore (st_heap s) (JRef key) = false)
    (Hv : forall l, v <> JRef l)
    (Hreg : registerIdentity (JRef key) v s = Ok tt s1) :
  getTranslator (JRef key) s1 =
    Throw ETypeError
      (set_heap s1 (<[fresh (dom (st_heap s1)) :=
                       OTranslator (newRecordTranslator v)]> (st_heap s1))).
Proof.
  destruct (registerIdentity_resolves key v s s1 Hk Hreg) as (Hres & _ & _).
  rewrite getTranslator_unfold, Hres.
  destruct v as [| | | | | l]; try reflexivity. exfalso. exact (Hv l eq_refl).
Qed.

Lemma getTranslator_primitive_host_witness :
  getTranslator (JRef 3%nat)
    (set_identities (init_state sample_heap) {[3%nat := JNum 7]}) =
  Throw ETypeError
    (set_heap (set_identities (init_state sample_heap) {[3%nat := JNum 7]})
       (<[4%nat := OTranslator (newRecordTranslator (JNum 7))]> sample_heap)).
Proof.
  rewrite (getTranslator_primitive_host 3%nat (JNum 7) (init_state sample_heap));
    [reflexivity | reflexivity | intros l H; discriminate | reflexivity].
Defined.

(** Re-registering a key moves it to the new host: after
    [registerIdentity(key, h1)], [getTranslator(key)] returning [t1] and
    [registerIdentity(key, h2)] ([h1], [h2] [Core] instances, [key] an object
    that is not one), [getTranslator(key)] does exactly what
    [getTranslator(h2)] does, and afterwards [getTranslator(h1)] still
    returns [t1]. *)
Theorem reregistered_key_follows_new_host (key h1 h2 t1 : loc)
    (s s1 s2 s3 : state)
    (Hk : instanceofCore (st_heap s) (JRef key) = false)
    (Hh1 : instanceofCore (st_heap s) (JRef h1) = true)
    (Hh2 : instanceofCore (st_heap s) (JRef h2) = true)
    (Hreg1 : registerIdentity (JRef key) (JRef h1) s = Ok tt s1)
    (Hget1 : getTranslator (JRef key) s1 = Ok t1 s2)
    (Hreg2 : registerIdentity (JRef key) (JRef h2) s2 = Ok tt s3) :
  getTranslator (JRef key) s3 = getTranslator (JRef h2) s3 /\
  (forall t s4, getTranslator (JRef key) s3 = Ok t s4 ->
                getTranslator (JRef h1) s4 = Ok t1 s4).
Proof.
  destruct (registerIdentity_resolves key (JRef h1) s s1 Hk Hreg1)
    as (Hr1 & Hheap1 & _).
  pose proof (getTranslator_caches _ s1 s2 h1 t1 Hr1 Hget1) as Hc2.
  pose proof (getTranslator_keeps (JRef key) s1) as (_ & Hcore2 & _).
  rewrite Hget1 in Hcore2. simpl in Hcore2.
  assert (Hk2 : instanceofCore (st_heap s2) (JRef key) = false)
    by (rewrite Hcore2, Hheap1; exact Hk).
  destruct (registerIdentity_resolves key (JRef h2) s2 s3 Hk2 Hreg2)
    as (Hr3 & Hheap3 & Hsing3).
  split.
  - rewrite !getTranslator_unfold, Hr3.
    assert (Hrh2 : resolved s3 (JRef h2) = Some (JRef h2)).
    { unfold resolved. rewrite Hheap3, Hcore2, Hheap1, Hh2. reflexivity. }
    rewrite Hrh2. reflexivity.
  - intros t s4 Hget3. apply (getTranslator_cached _ _ h1 t1).
    + pose proof (resolved_after_getTranslator (JRef key) (JRef h1) s3) as Hr.
      rewrite Hget3 in Hr. simpl in Hr. rewrite Hr.
      unfold resolved. rewrite Hheap3, Hcore2, Hheap1, Hh1. reflexivity.
    + pose proof (proj2 (proj2 (getTranslator_keeps (JRef key) s3)) h1 t1)
        as Hkeep.
      rewrite Hget3 in Hkeep. apply Hkeep. rewrite Hsing3. exact Hc2.
Qed.

Lemma reregistered_key_follows_new_host_witness :
  getTranslator (JRef 3%nat)
    (mkState (<[4%nat := OTranslator (newRecordTranslator (JRef 1%nat))]> sample_heap)
             {[3%nat := JRef 2%nat]} {[1%nat := 4%nat]}) =
  getTranslator (JRef 2%nat)
    (mkState (<[4%nat := OTranslator (newRecordTranslator (JRef 1%nat))]> sample_heap)
             {[3%nat := JRef 2%nat]} {[1%nat := 4%nat]}).
Proof.
  refine (proj1 (reregistered_key_follows_new_host 3%nat 1%nat 2%nat 4%nat
    (init_state sample_heap)
    (set_identities (init_state sample_heap)
       ({[3%nat := JRef 1%nat]} : gmap loc jsval))
    (mkState (<[4%nat := OTranslator (newRecordTranslator (JRef 1%nat))]> sample_heap)
             {[3%nat := JRef 1%nat]} {[1%nat := 4%nat]})
    _ _ _ _ _ _ _)); vm_compute; reflexivity.
Defined.

(* ================================================================== *)
(** * Further properties of the translator methods *)

Lemma setSkippedRows_heap (t : loc) (rt : RecordTranslator) (h : heap)
    (indexes : list Z) :
  h !! t = Some (OTranslator rt) ->
  setSkippedRows t indexes h =
    Ok tt (<[t := OTranslator (mkRecordTranslator (hot rt)
                  (setSkippedIndexes (rowIndexMapper rt) indexes)
                  (columnIndexMapper rt))]> h).
Proof.
  intros Ht. unfold setSkippedRows, bind. rewrite (get_this_ok t rt h Ht).
  reflexivity.
Qed.

Lemma setSkippedColumns_heap (t : loc) (rt : RecordTranslator) (h : heap)
    (indexes : list Z) :
  h !! t = Some (OTranslator rt) ->
  setSkippedColumns t indexes h =
    Ok tt (<[t := OTranslator (mkRecordTranslator (hot rt)
                  (rowIndexMapper rt)
                  (setSkippedIndexes (columnIndexMapper rt) indexes))]> h).
Proof.
  intros Ht. unfold setSkippedColumns, bind. rewrite (get_this_ok t rt h Ht).
  reflexivity.
Qed.

(** After [setSkippedRows(list)], [getSkippedRows()] returns [list] and
    [isSkippedRow(p)] tells whether [p] is in it, while the column
    accessors answer as before. *)
Theorem setSkippedRows_then_read (t : loc) (rt : RecordTranslator)
    (h h' : heap) (indexes : list Z)
    (Ht : h !! t = Some (OTranslator rt))
    (Hset : setSkippedRows t indexes h = Ok tt h') :
  getSkippedRows t h' = Ok indexes h' /\
  (forall p, isSkippedRow t (JNum p) h' = Ok (memZ p indexes) h') /\
  getSkippedColumns t h' = Ok (getSkippedIndexes (columnIndexMapper rt)) h' /\
  (forall c, isSkippedColumn t c h' =
             Ok (isSkipped (columnIndexMapper rt) c) h').
Proof.
  rewrite (setSkippedRows_heap t rt h indexes Ht) in Hset.
  injection Hset as <-.
  unfold getSkippedRows, getSkippedColumns, isSkippedRow, isSkippedColumn, bind.
  rewrite (get_this_ok _ _ _ (lookup_insert_eq _ _ _)).
  repeat split.
Qed.

Lemma setSkippedRows_then_read_witness :
  getSkippedRows 0%nat
    (<[0%nat := OTranslator (mkRecordTranslator (JRef 1%nat)
                 {| indexOrder := [0; 1; 2; 3; 4]; skipped := [2; 4] |}
                 sample_columns)]> sample_heap) =
  Ok [2; 4]
    (<[0%nat := OTranslator (mkRecordTranslator (JRef 1%nat)
                 {| indexOrder := [0; 1; 2; 3; 4]; skipped := [2; 4] |}
                 sample_columns)]> sample_heap).
Proof.
  refine (proj1 (setSkippedRows_then_read 0%nat
    (mkRecordTranslator (JRef 1%nat) sample_rows sample_columns)
    sample_heap _ [2; 4] eq_refl _)); reflexivity.
Defined.

(** After [setSkippedColumns(list)], [getSkippedColumns()] returns [list]
    and [isSkippedColumn(p)] tells whether [p] is in it, while the row
    accessors answer as before. *)
Theorem setSkippedColumns_then_read (t : loc) (rt : RecordTranslator)
    (h h' : heap) (indexes : list Z)
    (Ht : h !! t = Some (OTranslator rt))
    (Hset : setSkippedColumns t indexes h = Ok tt h') :
  getSkippedColumns t h' = Ok indexes h' /\
  (forall p, isSkippedColumn t (JNum p) h' = Ok (memZ p indexes) h') /\
  getSkippedRows t h' = Ok (getSkippedIndexes (rowIndexMapper rt)) h' /\
  (forall r, isSkippedRow t r h' = Ok (isSkipped (rowIndexMapper rt) r) h').
Proof.
  rewrite (setSkippedColumns_heap t rt h indexes Ht) in Hset.
  injection Hset as <-.
  unfold getSkippedRows, getSkippedColumns, isSkippedRow, isSkippedColumn, bind.
  rewrite (get_this_ok _ _ _ (lookup_insert_eq _ _ _)).
  repeat split.
Qed.

Lemma setSkippedColumns_then_read_witness :
  getSkippedColumns 0%nat
    (<[0%nat := OTranslator (mkRecordTranslator (JRef 1%nat) sample_rows
                 {| indexOrder := [0; 1; 2]; skipped := [0] |})]> sample_heap) =
  Ok [0]
    (<[0%nat := OTranslator (mkRecordTranslator (JRef 1%nat) sample_rows
                 {| indexOrder := [0; 1; 2]; skipped := [0] |})]> sample_heap).
Proof.
  refine (proj1 (setSkippedColumns_then_read 0%nat
    (mkRecordTranslator (JRef 1%nat) sample_rows sample_columns)
    sample_heap _ [0] eq_refl _)); reflexivity.
Defined.

(** Setting the skipped list twice is the same as setting it once to the
    second list, for rows and for columns. *)
Theorem setSkipped_last_wins (t : loc) (rt : RecordTranslator) (h : heap)
    (l1 l2 : list Z) (Ht : h !! t = Some (OTranslator rt)) :
  (forall h1, setSkippedRows t l1 h = Ok tt h1 ->
              setSkippedRows t l2 h1 = setSkippedRows t l2 h) /\
  (forall h1, setSkippedColumns t l1 h = Ok tt h1 ->
              setSkippedColumns t l2 h1 = setSkippedColumns t l2 h).
Proof.
  split; intros h1 H1.
  - rewrite (setSkippedRows_heap t rt h l1 Ht) in H1. injection H1 as <-.
    rewrite (setSkippedRows_heap t _ _ l2 (lookup_insert_eq _ _ _)),
      (setSkippedRows_heap t rt h l2 Ht).
    simpl. rewrite insert_insert_eq. reflexivity.
  - rewrite (setSkippedColumns_heap t rt h l1 Ht) in H1. injection H1 as <-.
    rewrite (setSkippedColumns_heap t _ _ l2 (lookup_insert_eq _ _ _)),
      (setSkippedColumns_heap t rt h l2 Ht).
    simpl. rewrite insert_insert_eq. reflexivity.
Qed.

Lemma setSkipped_last_wins_witness :
  setSkippedRows 0%nat [3]
    (<[0%nat := OTranslator (mkRecordTranslator (JRef 1%nat)
                 {| indexOrder := [0; 1; 2; 3; 4]; skipped := [2; 4] |}
                 sample_columns)]> sample_heap) =
  setSkippedRows 0%nat [3] sample_heap.
Proof.
  refine (proj1 (setSkipped_last_wins 0%nat
    (mkRecordTranslator (JRef 1%nat) sample_rows sample_columns)
    sample_heap [2; 4] [3] eq_refl) _ _). reflexivity.
Defined.

(** After [setSkippedRows(list)], translating a physical row of [list] to
    visual hands the unmapped sentinel to the [unmodifyRow] hook, and the
    column translations are those of the untouched column mapper. *)
Theorem skipped_row_translates_to_hooked_sentinel
    (runHooks : jsval -> string -> jsval -> ST heap jsval)
    (t : loc) (rt : RecordTranslator) (h h' : heap) (indexes : list Z) (p : Z)
    (Ht : h !! t = Some (OTranslator rt))
    (Hset : setSkippedRows t indexes h = Ok tt h')
    (Hp : In p indexes) :
  toVisualRow runHooks t (JNum p) h' =
    runHooks (hot rt) "unmodifyRow" unmapped h' /\
  (forall c, toVisualColumn runHooks t c h' =
     runHooks (hot rt) "unmodifyCol" (getVisualIndex (columnIndexMapper rt) c) h').
Proof.
  rewrite (setSkippedRows_heap t rt h indexes Ht) in Hset.
  injection Hset as <-.
  unfold toVisualRow, toVisualColumn, bind.
  rewrite (get_this_ok _ _ _ (lookup_insert_eq _ _ _)). simpl.
  split; [|reflexivity].
  apply memZ_In in Hp. unfold getVisualIndex. simpl. rewrite Hp. reflexivity.
Qed.

Lemma skipped_row_translates_to_hooked_sentinel_witness :
  toVisualRow sentinel_hooks 0%nat (JNum 2)
    (<[0%nat := OTranslator (mkRecordTranslator (JRef 1%nat)
                 {| indexOrder := [0; 1; 2; 3; 4]; skipped := [2; 4] |}
                 sample_columns)]> sample_heap) =
  sentinel_hooks (JRef 1%nat) "unmodifyRow" unmapped
    (<[0%nat := OTranslator (mkRecordTranslator (JRef 1%nat)
                 {| indexOrder := [0; 1; 2; 3; 4]; skipped := [2; 4] |}
                 sample_columns)]> sample_heap).
Proof.
  refine (proj1 (skipped_row_translates_to_hooked_sentinel sentinel_hooks 0%nat
    (mkRecordTranslator (JRef 1%nat) sample_rows sample_columns)
    sample_heap _ [2; 4] 2 eq_refl _ _)); [reflexivity | simpl; tauto].
Defined.

Lemma toVisual_objectlike (runHooks : jsval -> string -> jsval -> ST heap jsval)
    (t : loc) (row column : jsval) (h : heap) :
  isObject h row = true ->
  toVisual runHooks t row column h =
  (r <- get_prop row "row" ;; vr <- toVisualRow runHooks t r ;;
   c <- get_prop row "column" ;; vc <- toVisualColumn runHooks t c ;;
   ret (CObj vr vc)) h.
Proof. intros Hrow. unfold toVisual, bind at 1, get. rewrite Hrow. reflexivity. Qed.

Lemma toPhysical_objectlike (runHooks : jsval -> string -> jsval -> ST heap jsval)
    (t : loc) (row column : jsval) (h : heap) :
  isObject h row = true ->
  toPhysical runHooks t row column h =
  (r <- get_prop row "row" ;; pr <- toPhysicalRow runHooks t r ;;
   c <- get_prop row "column" ;; pc <- toPhysicalColumn runHooks t c ;;
   ret (CObj pr pc)) h.
Proof. intros Hrow. unfold toPhysical, bind at 1, get. rewrite Hrow. reflexivity. Qed.

(** When the first argument is object-like, [toVisual] and [toPhysical]
    ignore their second argument. *)
Theorem object_form_ignores_column_argument
    (runHooks : jsval -> string -> jsval -> ST heap jsval)
    (t : loc) (row x y : jsval) (h : heap) (Hrow : isObject h row = true) :
  toVisual runHooks t row x h = toVisual runHooks t row y h /\
  toPhysical runHooks t row x h = toPhysical runHooks t row y h.
Proof.
  rewrite !toVisual_objectlike, !toPhysical_objectlike by exact Hrow.
  split; reflexivity.
Qed.

Lemma object_form_ignores_column_argument_witness :
  toPhysical plus10_hooks 0%nat (JRef 3%nat) (JNum 0) sample_heap =
  toPhysical plus10_hooks 0%nat (JRef 3%nat) JUndefined sample_heap.
Proof.
  exact (proj2 (object_form_ignores_column_argument plus10_hooks 0%nat
    (JRef 3%nat) (JNum 0) JUndefined sample_heap eq_refl)).
Defined.

(** In both call shapes the row is translated first: when the row
    translation throws, [toVisual] and [toPhysical] throw the same error in
    the same state, and the column is neither read nor translated. *)
Theorem row_error_skips_column
    (runHooks : jsval -> string -> jsval -> ST heap jsval)
    (t : loc) (h h1 : heap) (e : exn) :
  (forall row column, isObject h row = false ->
     toVisualRow runHooks t row h = Throw e h1 ->
     toVisual runHooks t row column h = Throw e h1) /\
  (forall row column, isObject h row = false ->
     toPhysicalRow runHooks t row h = Throw e h1 ->
     toPhysical runHooks t row column h = Throw e h1) /\
  (forall l fs x, h !! l = Some (OPlain fs) ->
     toVisualRow runHooks t (field_lookup "row" fs) h = Throw e h1 ->
     toVisual runHooks t (JRef l) x h = Throw e h1) /\
  (forall l fs x, h !! l = Some (OPlain fs) ->
     toPhysicalRow runHooks t (field_lookup "row" fs) h = Throw e h1 ->
     toPhysical runHooks t (JRef l) x h = Throw e h1).
Proof.
  split; [|split; [|split]].
  - intros row column Hrow He. rewrite toVisual_scalar by exact Hrow.
    unfold bind at 1. rewrite He. reflexivity.
  - intros row column Hrow He. rewrite toPhysical_scalar by exact Hrow.
    unfold bind at 1. rewrite He. reflexivity.
  - intros l fs x Hl He.
    rewrite toVisual_objectlike by (simpl; rewrite Hl; reflexivity).
    unfold bind at 1. unfold get_prop at 1. rewrite Hl.
    unfold bind at 1. rewrite He. reflexivity.
  - intros l fs x Hl He.
    rewrite toPhysical_objectlike by (simpl; rewrite Hl; reflexivity).
    unfold bind at 1. unfold get_prop at 1. rewrite Hl.
    unfold bind at 1. rewrite He. reflexivity.
Qed.

(** [this] is not a translator: [toVisualRow] throws, and so does
    [toVisual], before any hook runs. *)
Lemma row_error_skips_column_witness :
  toVisual plus10_hooks 1%nat (JNum 3) (JNum 1) sample_heap
    = Throw ETypeError sample_heap.
Proof.
  exact (proj1 (row_error_skips_column plus10_hooks 1%nat sample_heap sample_heap
    ETypeError) (JNum 3) (JNum 1) eq_refl eq_refl).
Defined.

(** In the object form, [row.column] is read only after the row hook has
    run: if that hook rewrites the coordinate object, the column
    translated is the one the object holds afterwards. *)
Theorem object_form_reads_column_after_row_hook
    (runHooks : jsval -> string -> jsval -> ST heap jsval)
    (t l : loc) (fs fs1 : list (string * jsval)) (x vr : jsval) (h h1 : heap)
    (Hl : h !! l = Some (OPlain fs))
    (Hrow : toVisualRow runHooks t (field_lookup "row" fs) h = Ok vr h1)
    (Hl1 : h1 !! l = Some (OPlain fs1)) :
  toVisual runHooks t (JRef l) x h =
    (vc <- toVisualColumn runHooks t (field_lookup "column" fs1) ;;
     ret (CObj vr vc)) h1.
Proof.
  rewrite toVisual_objectlike by (simpl; rewrite Hl; reflexivity).
  unfold bind at 1. unfold get_prop at 1. rewrite Hl.
  unfold bind at 1. rewrite Hrow.
  unfold bind at 1, get_prop. rewrite Hl1. reflexivity.
Qed.

(** The [unmodifyRow] hook rewrites [{row: 3, column: 1}] to
    [{row: 3, column: 2}]: column 2 is translated, not column 1. *)
Lemma object_form_reads_column_after_row_hook_witness :
  toVisual rewriting_hooks 0%nat (JRef 3%nat) JUndefined sample_heap =
    Ok (CObj (JNum 2) (JNum 2))
       (<[3%nat := OPlain [("row", JNum 3); ("column", JNum 2)]]> sample_heap).
Proof.
  rewrite (object_form_reads_column_after_row_hook rewriting_hooks 0%nat 3%nat
    [("row", JNum 3); ("column", JNum 1)] [("row", JNum 3); ("column", JNum 2)]
    JUndefined (JNum 2) sample_heap
    (<[3%nat := OPlain [("row", JNum 3); ("column", JNum 2)]]> sample_heap)
    eq_refl eq_refl eq_refl).
  reflexivity.
Defined.
